(** * fight-judge: the upload widget of [frontend/index.js]

    A shallow embedding of the page script: the two constants, the
    validation guards and the preview step of [handleFile], the event
    listeners, and the host objects they touch (DOM elements, the object-URL
    store, [alert]).  The spec's vocabulary ([validate], [stage], [describe],
    [release]) is mapped onto the parts of [handleFile] that play those
    roles. *)

From Stdlib Require Import List String Ascii Bool NArith ZArith QArith Qabs Qround Lia.
From Stdlib Require Import DecimalString DecimalN DecimalPos.
Import ListNotations.

Local Open Scope string_scope.

(** ** Data model *)

(** A DOM [File]: the three properties the script reads.  [size] is an
    unsigned byte count. *)
Record File : Type := mkFile {
  name : string;
  type : string;
  size : N
}.

(** [const MAX_FILE_SIZE = 500 * 1024 * 1024;] *)
Definition MAX_FILE_SIZE : N := 500 * 1024 * 1024.

(** [const ALLOWED_TYPES = ["video/mp4", "video/quicktime", "video/x-msvideo"];]
    The script declares this array and never reads it. *)
Definition ALLOWED_TYPES : list string :=
  ["video/mp4"; "video/quicktime"; "video/x-msvideo"].

(** ** String primitives used by the guards *)

(** [s.startsWith(p)] *)
Definition startsWith (s p : string) : bool := String.prefix p s.

(** Case folding of the regular-expression flag [i] (without flag [u]): a
    character is compared through its upper-case form, and a character
    outside ASCII never folds onto an ASCII one, so on the bytes of a name
    only [a]..[z] move. *)
Definition canonicalize (c : ascii) : ascii :=
  let n := nat_of_ascii c in
  if (97 <=? n)%nat && (n <=? 122)%nat then ascii_of_nat (n - 32) else c.

(** A literal of the pattern matched against the whole rest of the input:
    the literal is followed by [$]. *)
Fixpoint literal_to_end (lit s : string) : bool :=
  match lit, s with
  | EmptyString, EmptyString => true
  | String a lit', String c s' =>
      Ascii.eqb (canonicalize a) (canonicalize c) && literal_to_end lit' s'
  | _, _ => false
  end.

(** [\.(mp4|mov|avi)$] tried at the current position. *)
Definition ext_here (s : string) : bool :=
  match s with
  | String c rest =>
      Ascii.eqb (canonicalize c) (canonicalize ".")
      && (literal_to_end "mp4" rest
          || literal_to_end "mov" rest
          || literal_to_end "avi" rest)
  | EmptyString => false
  end.

(** [s.match(/\.(mp4|mov|avi)$/i)] as a truth value: the pattern is tried
    at every start position, left to right. *)
Fixpoint match_ext (s : string) : bool :=
  ext_here s
  || match s with
     | EmptyString => false
     | String _ rest => match_ext rest
     end.

(** ** Validation: the two guards of [handleFile] *)

Inductive Reason : Type := InvalidType | TooLarge.

Inductive ValidationResult : Type :=
| Accepted
| Rejected (r : Reason).

(** The condition of the first [if]: the file is turned away when the type
    does not start with ["video/"] and the name does not match. *)
Definition type_check_fails (file : File) : bool :=
  negb (startsWith (type file) "video/") && negb (match_ext (name file)).

(** The outcome of the guards, in the order [handleFile] runs them. *)
Definition validate (file : File) : ValidationResult :=
  if type_check_fails file then Rejected InvalidType
  else if (MAX_FILE_SIZE <? size file)%N then Rejected TooLarge
  else Accepted.

(** ** [Number.prototype.toFixed]

    [file.size / (1024 * 1024)] divides an integer below [2^53] by a power
    of two, so the quotient is exact and the number is modelled by a
    rational.  [toFixed] then follows the language definition: the integer
    [n] with [n / 10^f] nearest to [x] (the larger one on a tie), its
    decimal digits padded with zeros to [f + 1] places, and a point before
    the last [f].  The branch for [x >= 10^21] falls outside what a file
    size can reach and is left out. *)

Definition nearest_scaled (f : nat) (x : Q) : Z :=
  Qfloor (x * inject_Z (10 ^ Z.of_nat f) + (1 # 2)).

Definition decimal_digits (n : Z) : string :=
  NilZero.string_of_uint (N.to_uint (Z.to_N n)).

Fixpoint zeros (k : nat) : string :=
  match k with
  | O => ""
  | S k' => String "0" (zeros k')
  end.

Definition toFixed (f : nat) (x : Q) : string :=
  let s := if Qlt_le_dec x 0 then "-" else "" in
  let x := Qabs x in
  let n := nearest_scaled f x in
  let m := decimal_digits n in
  let m :=
    match f with
    | O => m
    | _ =>
        let k := String.length m in
        let m := if (k <=? f)%nat then zeros (f + 1 - k) ++ m else m in
        let k := String.length m in
        substring 0 (k - f) m ++ "." ++ substring (k - f) f m
    end in
  s ++ m.

(** ** The page *)

(** An object URL handed out by [URL.createObjectURL]; only its identity
    matters. *)
Definition ObjectURL : Type := N.

(** The [src] attribute of the player: a plain string or an object URL. *)
Inductive Src : Type :=
| SrcText (s : string)
| SrcObject (u : ObjectURL).

(** The mutable state the listeners read and write: the DOM properties of
    the elements fetched at the top of the script, and the host's side (the
    object-URL store, the modal alerts shown, the picker requests made by
    [videoInput.click()]). *)
Record Page : Type := mkPage {
  uploadContainer_classList : list string;
  videoPreview_classList : list string;
  videoPlayer_src : Src;
  videoInput_value : string;
  fileName_textContent : string;
  fileSize_textContent : string;
  objectURLs : list (ObjectURL * File);
  issued : N;
  alerts : list string;
  pickerRequests : nat
}.

Definition set_uploadContainer_classList (v : list string) (s : Page) : Page :=
  mkPage v (videoPreview_classList s) (videoPlayer_src s) (videoInput_value s)
    (fileName_textContent s) (fileSize_textContent s) (objectURLs s) (issued s)
    (alerts s) (pickerRequests s).

Definition set_videoPreview_classList (v : list string) (s : Page) : Page :=
  mkPage (uploadContainer_classList s) v (videoPlayer_src s) (videoInput_value s)
    (fileName_textContent s) (fileSize_textContent s) (objectURLs s) (issued s)
    (alerts s) (pickerRequests s).

Definition set_videoPlayer_src (v : Src) (s : Page) : Page :=
  mkPage (uploadContainer_classList s) (videoPreview_classList s) v
    (videoInput_value s) (fileName_textContent s) (fileSize_textContent s)
    (objectURLs s) (issued s) (alerts s) (pickerRequests s).

Definition set_videoInput_value (v : string) (s : Page) : Page :=
  mkPage (uploadContainer_classList s) (videoPreview_classList s)
    (videoPlayer_src s) v (fileName_textContent s) (fileSize_textContent s)
    (objectURLs s) (issued s) (alerts s) (pickerRequests s).

Definition set_fileName_textContent (v : string) (s : Page) : Page :=
  mkPage (uploadContainer_classList s) (videoPreview_classList s)
    (videoPlayer_src s) (videoInput_value s) v (fileSize_textContent s)
    (objectURLs s) (issued s) (alerts s) (pickerRequests s).

Definition set_fileSize_textContent (v : string) (s : Page) : Page :=
  mkPage (uploadContainer_classList s) (videoPreview_classList s)
    (videoPlayer_src s) (videoInput_value s) (fileName_textContent s) v
    (objectURLs s) (issued s) (alerts s) (pickerRequests s).

(** *** Host operations *)

(** [classList.add(t1, ..., tn)]: each token is appended unless present. *)
Definition classList_add (tokens cl : list string) : list string :=
  fold_left
    (fun acc t => if existsb (String.eqb t) acc then acc else (acc ++ [t])%list)
    tokens cl.

(** [classList.remove(t1, ..., tn)] *)
Definition classList_remove (tokens cl : list string) : list string :=
  filter (fun c => negb (existsb (String.eqb c) tokens)) cl.

(** [alert(msg)] *)
Definition alert (msg : string) (s : Page) : Page :=
  mkPage (uploadContainer_classList s) (videoPreview_classList s)
    (videoPlayer_src s) (videoInput_value s) (fileName_textContent s)
    (fileSize_textContent s) (objectURLs s) (issued s)
    (alerts s ++ [msg])%list (pickerRequests s).

(** [URL.createObjectURL(file)]: a URL never handed out before is entered
    in the store for [file]. *)
Definition createObjectURL (file : File) (s : Page) : ObjectURL * Page :=
  let url := issued s in
  (url,
   mkPage (uploadContainer_classList s) (videoPreview_classList s)
     (videoPlayer_src s) (videoInput_value s) (fileName_textContent s)
     (fileSize_textContent s) (objectURLs s ++ [(url, file)])%list
     (N.succ (issued s)) (alerts s) (pickerRequests s)).

(** [videoInput.click()] *)
Definition videoInput_click (s : Page) : Page :=
  mkPage (uploadContainer_classList s) (videoPreview_classList s)
    (videoPlayer_src s) (videoInput_value s) (fileName_textContent s)
    (fileSize_textContent s) (objectURLs s) (issued s) (alerts s)
    (S (pickerRequests s)).

(** *** [handleFile] *)

(** [bytes / (1024 * 1024)] *)
Definition MiB (bytes : N) : Q :=
  inject_Z (Z.of_N bytes) / inject_Z (1024 * 1024).

(** The two template literals of the preview step. *)
Definition display_name (file : File) : string := "File: " ++ name file.

Definition display_size (file : File) : string :=
  "Size: " ++ toFixed 2 (MiB (size file)) ++ " MB".

(** What the spec calls [describe]: the two strings shown for a file. *)
Definition describe (file : File) : string * string :=
  (display_name file, display_size file).

Definition handleFile (file : File) (s : Page) : Page :=
  if negb (startsWith (type file) "video/") && negb (match_ext (name file))
  then alert "Please upload a valid video file (MP4, MOV, or AVI)" s
  else if (MAX_FILE_SIZE <? size file)%N
  then alert "File size must be less than 500MB" s
  else
    let (url, s) := createObjectURL file s in
    let s := set_videoPlayer_src (SrcObject url) s in
    let s := set_fileName_textContent (display_name file) s in
    let s := set_fileSize_textContent (display_size file) s in
    let s := set_uploadContainer_classList
               (classList_add ["hidden"] (uploadContainer_classList s)) s in
    set_videoPreview_classList
      (classList_remove ["hidden"] (videoPreview_classList s)) s.

(** *** The listeners

    One constructor per listener the script registers.  A click on the
    drop zone carries whether its target is the upload button; a drop and
    an input change carry the files offered.  [e.preventDefault()] acts on
    the event and leaves the page as it is. *)

Inductive Event : Type :=
| UploadBtnClick
| UploadContainerClick (target_is_uploadBtn : bool)
| DragOver
| DragLeave
| Drop (files : list File)
| InputChange (files : list File)
| ChangeBtnClick
| AnalyzeBtnClick.

Definition listener (e : Event) (s : Page) : Page :=
  match e with
  | UploadBtnClick => videoInput_click s
  | UploadContainerClick target_is_uploadBtn =>
      if negb target_is_uploadBtn then videoInput_click s else s
  | DragOver =>
      let s := set_uploadContainer_classList
                 (classList_remove ["border-white/30"]
                    (uploadContainer_classList s)) s in
      set_uploadContainer_classList
        (classList_add ["border-sky-500"; "bg-sky-500/10"]
           (uploadContainer_classList s)) s
  | DragLeave =>
      let s := set_uploadContainer_classList
                 (classList_add ["border-white/30"]
                    (uploadContainer_classList s)) s in
      set_uploadContainer_classList
        (classList_remove ["border-sky-500"; "bg-sky-500/10"]
           (uploadContainer_classList s)) s
  | Drop files =>
      let s := set_uploadContainer_classList
                 (classList_add ["border-white/30"]
                    (uploadContainer_classList s)) s in
      let s := set_uploadContainer_classList
                 (classList_remove ["border-sky-500"; "bg-sky-500/10"]
                    (uploadContainer_classList s)) s in
      match files with
      | file :: _ => handleFile file s
      | [] => s
      end
  | InputChange files =>
      match files with
      | file :: _ => handleFile file s
      | [] => s
      end
  | ChangeBtnClick =>
      let s := set_videoPlayer_src (SrcText "") s in
      let s := set_videoInput_value "" s in
      let s := set_uploadContainer_classList
                 (classList_remove ["hidden"] (uploadContainer_classList s)) s in
      set_videoPreview_classList
        (classList_add ["hidden"] (videoPreview_classList s)) s
  | AnalyzeBtnClick => alert "Video analysis will be implemented here!" s
  end.

(** A session: the listeners run one after the other, in the order the
    events arrive. *)
Definition run (events : list Event) (s : Page) : Page :=
  fold_left (fun s e => listener e s) events s.

(** The part of the page that makes up the upload session: what is staged,
    what is displayed for it, which of the two panels is hidden, and the
    host resources and messages. *)
Record Session : Type := mkSession {
  staged : Src;
  shown : string * string;
  input_value : string;
  upload_hidden : bool;
  preview_hidden : bool;
  store : list (ObjectURL * File);
  next_url : N;
  messages : list string
}.

Definition has_class (c : string) (cl : list string) : bool :=
  existsb (String.eqb c) cl.

Definition session (s : Page) : Session :=
  mkSession (videoPlayer_src s)
    (fileName_textContent s, fileSize_textContent s)
    (videoInput_value s)
    (has_class "hidden" (uploadContainer_classList s))
    (has_class "hidden" (videoPreview_classList s))
    (objectURLs s) (issued s) (alerts s).

(** A page as it may look before any file is chosen. *)
Definition blank_page : Page :=
  mkPage ["border-white/30"] ["hidden"] (SrcText "") "" "" "" [] 0 [] 0.

Definition fight_mp4 : File := mkFile "fight.mp4" "video/mp4" 50000000.
Definition fight_mkv : File := mkFile "fight.mkv" "video/x-matroska" 1000000.
Definition clip_MOV : File := mkFile "clip.MOV" "" 10000000.
Definition notes_txt : File := mkFile "notes.txt" "text/plain" 600000000.
Definition big_mp4 : File := mkFile "fight.mp4" "video/mp4" 600000000.
Definition big_mkv : File := mkFile "fight.mkv" "video/x-matroska" 600000000.

(** ** The spec's wording of the fallback, for comparison with the pattern *)

(** [s.toLowerCase()] on the bytes of a name: only [A]..[Z] move. *)
Definition lower (c : ascii) : ascii :=
  let n := nat_of_ascii c in
  if (65 <=? n)%nat && (n <=? 90)%nat then ascii_of_nat (n + 32) else c.

Fixpoint toLowerCase (s : string) : string :=
  match s with
  | EmptyString => EmptyString
  | String c s' => String (lower c) (toLowerCase s')
  end.

(** The filename suffix: what follows the last dot, if there is one. *)
Fixpoint extension (s : string) : option string :=
  match s with
  | EmptyString => None
  | String c rest =>
      match extension rest with
      | Some e => Some e
      | None => if Ascii.eqb c "." then Some rest else None
      end
  end.

(** The spec's [allowedExtensions]; in the script they are the three
    alternatives of the pattern. *)
Definition allowedExtensions : list string := ["mp4"; "mov"; "avi"].

(** "The lowercase filename suffix is in [allowedExtensions]." *)
Definition allowed_extension (n : string) : bool :=
  match extension n with
  | Some e => existsb (String.eqb (toLowerCase e)) allowedExtensions
  | None => false
  end.

(** The number a string of decimal digits stands for. *)
Definition read_digits (s : string) : option N :=
  option_map N.of_uint (NilEmpty.uint_of_string s).

(** An object URL is live while the store has an entry for it; releasing
    it ([URL.revokeObjectURL]) would take the entry out. *)
Definition live (u : ObjectURL) (s : Page) : bool :=
  existsb (fun entry => N.eqb (fst entry) u) (objectURLs s).

(** The file a selection event hands to [handleFile]: the first one
    offered, if any. *)
Definition selects (e : Event) : option File :=
  match e with
  | Drop (file :: _) | InputChange (file :: _) => Some file
  | _ => None
  end.

(** ** Vocabulary for whole sessions *)

(** An event stages a file when it selects one that passes both guards. *)
Definition stages (e : Event) : bool :=
  match selects e with
  | Some file =>
      match validate file with
      | Accepted => true
      | Rejected _ => false
      end
  | None => false
  end.

(** The messages an event makes the page show. *)
Definition alerts_of (e : Event) : list string :=
  match e with
  | AnalyzeBtnClick => ["Video analysis will be implemented here!"]
  | _ =>
      match selects e with
      | Some file =>
          match validate file with
          | Rejected InvalidType =>
              ["Please upload a valid video file (MP4, MOV, or AVI)"]
          | Rejected TooLarge => ["File size must be less than 500MB"]
          | Accepted => []
          end
      | None => []
      end
  end.

(** The clicks that ask the host for the file picker. *)
Definition opens_picker (e : Event) : bool :=
  match e with
  | UploadBtnClick => true
  | UploadContainerClick target_is_uploadBtn => negb target_is_uploadBtn
  | _ => false
  end.

(** The same event with every file after the first one taken away. *)
Definition first_only (e : Event) : Event :=
  match e with
  | Drop (file :: _) => Drop [file]
  | InputChange (file :: _) => InputChange [file]
  | _ => e
  end.

(** Exactly one of the two panels carries the class [hidden]. *)
Definition panels_exclusive (s : Page) : Prop :=
  has_class "hidden" (uploadContainer_classList s)
  = negb (has_class "hidden" (videoPreview_classList s)).

(** The player agrees with the preview panel: no source while the panel is
    hidden; while it is shown, an object URL of the store, made for a file
    that passed the guards and whose name and size are the ones displayed. *)
Definition preview_consistent (s : Page) : Prop :=
  if has_class "hidden" (videoPreview_classList s)
  then videoPlayer_src s = SrcText ""
  else exists (u : ObjectURL) (file : File),
         videoPlayer_src s = SrcObject u
         /\ In (u, file) (objectURLs s)
         /\ validate file = Accepted
         /\ fileName_textContent s = display_name file
         /\ fileSize_textContent s = display_size file.

(** Every object URL of the store was made for a file that passed the
    guards. *)
Definition store_accepted (s : Page) : Prop :=
  Forall (fun entry => validate (snd entry) = Accepted) (objectURLs s).

(** The URLs of the store are pairwise distinct and were all handed out
    already. *)
Definition store_fresh (s : Page) : Prop :=
  NoDup (map fst (objectURLs s))
  /\ Forall (fun entry => (fst entry < issued s)%N) (objectURLs s).

(** The drop zone shows the drag highlight. *)
Definition highlighted (s : Page) : bool :=
  has_class "border-sky-500" (uploadContainer_classList s)
  && has_class "bg-sky-500/10" (uploadContainer_classList s)
  && negb (has_class "border-white/30" (uploadContainer_classList s)).

(** The drop zone shows its resting border and no drag highlight. *)
Definition at_rest (s : Page) : bool :=
  has_class "border-white/30" (uploadContainer_classList s)
  && negb (has_class "border-sky-500" (uploadContainer_classList s))
  && negb (has_class "bg-sky-500/10" (uploadContainer_classList s)).

(** * Properties *)

(** ** Characters and the pattern *)

Ltac each_ascii c :=
  destruct c as [[] [] [] [] [] [] [] []]; vm_compute; try reflexivity;
  try discriminate; auto.

Lemma lower_canonicalize (c : ascii) : lower (canonicalize c) = lower c.
Proof. each_ascii c. Qed.

Lemma canonicalize_lower (c : ascii) : canonicalize (lower c) = canonicalize c.
Proof. each_ascii c. Qed.

Lemma canonicalize_dot (c : ascii) :
  Ascii.eqb (canonicalize c) (canonicalize ".") = Ascii.eqb c ".".
Proof. each_ascii c. Qed.

Lemma lower_not_dot (c : ascii) : Ascii.eqb c "." = Ascii.eqb (lower c) ".".
Proof. each_ascii c. Qed.

(** A literal matches to the end exactly when both sides lower to the same
    string. *)
Lemma literal_to_end_lower (lit s : string) :
  literal_to_end lit s = true <-> toLowerCase lit = toLowerCase s.
Proof.
  revert s; induction lit as [|a lit IH]; intros [|c s]; simpl;
    try (split; [discriminate | discriminate]); [tauto|].
  rewrite andb_true_iff, IH, Ascii.eqb_eq. split.
  - intros [Hc Hs]. f_equal; [|exact Hs].
    rewrite <- (lower_canonicalize a), <- (lower_canonicalize c).
    now rewrite Hc.
  - intros H; injection H as Hc Hs. split; [|exact Hs].
    rewrite <- (canonicalize_lower a), <- (canonicalize_lower c).
    now rewrite Hc.
Qed.

Lemma literal_to_end_eqb (lit s : string) :
  toLowerCase lit = lit ->
  literal_to_end lit s = String.eqb (toLowerCase s) lit.
Proof.
  intros Hlit. apply eq_true_iff_eq.
  rewrite literal_to_end_lower, String.eqb_eq, Hlit. split; congruence.
Qed.

(** What follows the dot, when the pattern matches there. *)
Lemma ext_here_allowed (c : ascii) (rest : string) :
  ext_here (String c rest)
  = Ascii.eqb c "." && existsb (String.eqb (toLowerCase rest)) allowedExtensions.
Proof.
  unfold ext_here. rewrite canonicalize_dot.
  rewrite !literal_to_end_eqb by reflexivity.
  unfold allowedExtensions. cbn [existsb].
  now rewrite orb_false_r, orb_assoc.
Qed.

Lemma extension_toLowerCase (s : string) :
  extension (toLowerCase s) = option_map toLowerCase (extension s).
Proof.
  induction s as [|c s IH]; simpl; [reflexivity|].
  rewrite IH. destruct (extension s); simpl; [reflexivity|].
  rewrite <- lower_not_dot. now destruct (Ascii.eqb c ".").
Qed.

(** An allowed extension has no dot of its own. *)
Lemma allowed_no_dot (rest : string) :
  existsb (String.eqb (toLowerCase rest)) allowedExtensions = true ->
  extension rest = None.
Proof.
  intros H. pose proof (extension_toLowerCase rest) as E.
  unfold allowedExtensions in H. cbn [existsb] in H.
  rewrite orb_false_r, !orb_true_iff, !String.eqb_eq in H.
  destruct H as [H|[H|H]]; rewrite H in E; simpl in E;
    destruct (extension rest); simpl in E; congruence.
Qed.

(** The pattern and the spec's wording agree on every name. *)
Lemma match_ext_allowed_extension (n : string) :
  match_ext n = allowed_extension n.
Proof.
  unfold allowed_extension.
  induction n as [|c rest IH]; [reflexivity|].
  change (match_ext (String c rest))
    with (ext_here (String c rest) || match_ext rest).
  rewrite ext_here_allowed, IH. simpl extension.
  destruct (extension rest) as [e|] eqn:E.
  - destruct (existsb (String.eqb (toLowerCase rest)) allowedExtensions) eqn:A.
    + apply allowed_no_dot in A. congruence.
    + now rewrite andb_false_r.
  - rewrite orb_false_r. now destruct (Ascii.eqb c ".").
Qed.

(** ** Validation *)

Section Validation.

Variable file : File.

(** [handleFile] follows the outcome of [validate]: an alert and nothing
    else for each rejection. *)
Lemma handleFile_InvalidType (s : Page) :
  validate file = Rejected InvalidType ->
  handleFile file s
  = alert "Please upload a valid video file (MP4, MOV, or AVI)" s.
Proof.
  unfold validate, type_check_fails, handleFile.
  destruct (negb (startsWith (type file) "video/")
            && negb (match_ext (name file))); [reflexivity|].
  destruct (MAX_FILE_SIZE <? size file)%N; discriminate.
Qed.

Lemma handleFile_TooLarge (s : Page) :
  validate file = Rejected TooLarge ->
  handleFile file s = alert "File size must be less than 500MB" s.
Proof.
  unfold validate, type_check_fails, handleFile.
  destruct (negb (startsWith (type file) "video/")
            && negb (match_ext (name file))); [discriminate|].
  destruct (MAX_FILE_SIZE <? size file)%N; [reflexivity|discriminate].
Qed.

Lemma handleFile_Accepted (s : Page) :
  validate file = Accepted ->
  handleFile file s
  = mkPage (classList_add ["hidden"] (uploadContainer_classList s))
      (classList_remove ["hidden"] (videoPreview_classList s))
      (SrcObject (issued s)) (videoInput_value s)
      (display_name file) (display_size file)
      (objectURLs s ++ [(issued s, file)]) (N.succ (issued s))
      (alerts s) (pickerRequests s).
Proof.
  unfold validate, type_check_fails, handleFile.
  destruct (negb (startsWith (type file) "video/")
            && negb (match_ext (name file))); [discriminate|].
  destruct (MAX_FILE_SIZE <? size file)%N; [discriminate|reflexivity].
Qed.

Lemma type_check_fails_iff :
  type_check_fails file = true
  <-> startsWith (type file) "video/" = false
      /\ allowed_extension (name file) = false.
Proof.
  unfold type_check_fails.
  now rewrite match_ext_allowed_extension, andb_true_iff, !negb_true_iff.
Qed.

Lemma type_check_passes_iff :
  type_check_fails file = false
  <-> startsWith (type file) "video/" = true
      \/ allowed_extension (name file) = true.
Proof.
  unfold type_check_fails.
  now rewrite match_ext_allowed_extension, andb_false_iff, !negb_false_iff.
Qed.

Lemma validate_InvalidType_iff :
  validate file = Rejected InvalidType <-> type_check_fails file = true.
Proof.
  unfold validate. destruct (type_check_fails file); [tauto|].
  destruct (MAX_FILE_SIZE <? size file)%N; split; discriminate.
Qed.

Lemma validate_TooLarge_iff :
  validate file = Rejected TooLarge
  <-> type_check_fails file = false /\ (MAX_FILE_SIZE < size file)%N.
Proof.
  unfold validate. destruct (type_check_fails file).
  - split; [discriminate | intros [? _]; discriminate].
  - destruct (N.ltb_spec MAX_FILE_SIZE (size file)); split;
      try tauto; try discriminate. intros [_ ?]; lia.
Qed.

Lemma validate_Accepted_iff :
  validate file = Accepted
  <-> type_check_fails file = false /\ (size file <= MAX_FILE_SIZE)%N.
Proof.
  unfold validate. destruct (type_check_fails file).
  - split; [discriminate | intros [? _]; discriminate].
  - destruct (N.ltb_spec MAX_FILE_SIZE (size file)); split;
      try tauto; try discriminate. intros [_ ?]; lia.
Qed.

End Validation.

Lemma MAX_FILE_SIZE_bytes : MAX_FILE_SIZE = 524288000%N.
Proof. reflexivity. Qed.

(** Every entry of [ALLOWED_TYPES] starts with ["video/"]. *)
Lemma ALLOWED_TYPES_video (t : string) :
  In t ALLOWED_TYPES -> startsWith t "video/" = true.
Proof.
  unfold ALLOWED_TYPES; simpl.
  intros [<-|[<-|[<-|[]]]]; reflexivity.
Qed.

(** C1, as the spec states it, fails: [fight.mkv] with type
    [video/x-matroska] has a type outside [ALLOWED_TYPES] and a suffix
    outside [allowedExtensions], and it is not rejected. *)
Lemma fight_mkv_not_rejected :
  ~ (~ In (type fight_mkv) ALLOWED_TYPES ->
     allowed_extension (name fight_mkv) = false ->
     validate fight_mkv = Rejected InvalidType).
Proof.
  intros H.
  assert (E : validate fight_mkv = Rejected InvalidType).
  { apply H; [|reflexivity].
    unfold ALLOWED_TYPES; simpl. intros [E|[E|[E|[]]]]; discriminate E. }
  vm_compute in E. discriminate E.
Qed.

(** C1 (amended): [fight.mkv] with type [video/x-matroska] and size
    1_000_000 is accepted, because the type check looks at the ["video/"]
    prefix and not at [ALLOWED_TYPES]; a candidate is rejected with
    [InvalidType] exactly when its type does not start with ["video/"] and
    its lowercase filename suffix is not in [allowedExtensions]. *)
Theorem validate_InvalidType_lenient :
  validate fight_mkv = Accepted
  /\ forall file : File,
       validate file = Rejected InvalidType
       <-> startsWith (type file) "video/" = false
           /\ allowed_extension (name file) = false.
Proof.
  split; [reflexivity|].
  intros file. now rewrite validate_InvalidType_iff, type_check_fails_iff.
Qed.

(** C2, as the spec states it, fails: [notes.txt] of type [text/plain] is
    larger than [MAX_FILE_SIZE] and is rejected for its type, not its
    size. *)
Lemma notes_txt_not_TooLarge :
  ~ ((MAX_FILE_SIZE < size notes_txt)%N ->
     validate notes_txt = Rejected TooLarge).
Proof.
  intros H.
  assert (E : validate notes_txt = Rejected TooLarge) by (apply H; reflexivity).
  vm_compute in E. discriminate E.
Qed.

(** C2 (amended): every candidate that passes the type check (its type
    starts with ["video/"] or its lowercase suffix is in
    [allowedExtensions]) and whose size exceeds [MAX_FILE_SIZE] is rejected
    with [TooLarge]. *)
Theorem validate_TooLarge_after_type (file : File) :
  startsWith (type file) "video/" = true
  \/ allowed_extension (name file) = true ->
  (MAX_FILE_SIZE < size file)%N ->
  validate file = Rejected TooLarge.
Proof.
  intros Ht Hs. apply validate_TooLarge_iff. split; [|exact Hs].
  now apply type_check_passes_iff.
Qed.

Lemma validate_TooLarge_after_type_witness :
  (startsWith (type big_mp4) "video/" = true
   \/ allowed_extension (name big_mp4) = true)
  /\ (MAX_FILE_SIZE < size big_mp4)%N
  /\ validate big_mp4 = Rejected TooLarge.
Proof.
  split; [left; reflexivity|]. split; [reflexivity|].
  apply (validate_TooLarge_after_type big_mp4); [left; reflexivity|reflexivity].
Defined.

(** C3, as the spec states it, fails: [fight.mkv] of type
    [video/x-matroska] and 600_000_000 bytes has a type outside
    [ALLOWED_TYPES], a suffix outside [allowedExtensions] and a size above
    [MAX_FILE_SIZE], and it is rejected for its size: the ["video/"] prefix
    lets it through the type check. *)
Lemma big_mkv_rejected_TooLarge :
  ~ (~ In (type big_mkv) ALLOWED_TYPES ->
     allowed_extension (name big_mkv) = false ->
     (MAX_FILE_SIZE < size big_mkv)%N ->
     validate big_mkv = Rejected InvalidType
     /\ validate big_mkv <> Rejected TooLarge).
Proof.
  intros H.
  assert (E : validate big_mkv = Rejected InvalidType).
  { apply H; [|reflexivity|reflexivity].
    unfold ALLOWED_TYPES; simpl. intros [E|[E|[E|[]]]]; discriminate E. }
  vm_compute in E. discriminate E.
Qed.

(** C3 (amended): a candidate that fails both checks as the script makes
    them -- its type does not start with ["video/"], its lowercase suffix
    is not in [allowedExtensions], and its size exceeds [MAX_FILE_SIZE] --
    is rejected with [InvalidType], never [TooLarge]. *)
Theorem validate_type_precedes_size (file : File) :
  startsWith (type file) "video/" = false ->
  allowed_extension (name file) = false ->
  (MAX_FILE_SIZE < size file)%N ->
  validate file = Rejected InvalidType
  /\ validate file <> Rejected TooLarge.
Proof.
  intros Ht He _.
  assert (E : validate file = Rejected InvalidType).
  { apply validate_InvalidType_iff, type_check_fails_iff. now split. }
  split; [exact E|]. rewrite E. discriminate.
Qed.

Lemma validate_type_precedes_size_witness :
  startsWith (type notes_txt) "video/" = false
  /\ allowed_extension (name notes_txt) = false
  /\ (MAX_FILE_SIZE < size notes_txt)%N
  /\ validate notes_txt = Rejected InvalidType
  /\ validate notes_txt <> Rejected TooLarge.
Proof.
  split; [reflexivity|]. split; [reflexivity|]. split; [reflexivity|].
  apply (validate_type_precedes_size notes_txt); reflexivity.
Defined.

(** C4: a candidate whose type is one of [ALLOWED_TYPES] and whose size is
    at most 524288000 bytes is accepted. *)
Theorem validate_allowed_type_accepted (file : File) :
  In (type file) ALLOWED_TYPES ->
  (size file <= 524288000)%N ->
  validate file = Accepted.
Proof.
  intros Ht Hs. apply validate_Accepted_iff. split.
  - apply type_check_passes_iff. left. now apply ALLOWED_TYPES_video.
  - now rewrite MAX_FILE_SIZE_bytes.
Qed.

Lemma validate_allowed_type_accepted_witness :
  In (type fight_mp4) ALLOWED_TYPES
  /\ (size fight_mp4 <= 524288000)%N
  /\ validate fight_mp4 = Accepted.
Proof.
  split; [left; reflexivity|]. split; [vm_compute; discriminate|].
  apply (validate_allowed_type_accepted fight_mp4);
    [left; reflexivity | vm_compute; discriminate].
Defined.

(** C5: the extension fallback is case-insensitive: a candidate with an
    empty type whose filename suffix, lowercased, is in
    [allowedExtensions] (and whose size is within the limit, as for
    [clip.MOV] of 10_000_000 bytes) is accepted. *)
Theorem validate_extension_fallback (file : File) :
  type file = "" ->
  allowed_extension (name file) = true ->
  (size file <= MAX_FILE_SIZE)%N ->
  validate file = Accepted.
Proof.
  intros _ He Hs. apply validate_Accepted_iff. split; [|exact Hs].
  apply type_check_passes_iff. now right.
Qed.

Lemma validate_extension_fallback_witness :
  type clip_MOV = ""
  /\ allowed_extension (name clip_MOV) = true
  /\ (size clip_MOV <= MAX_FILE_SIZE)%N
  /\ validate clip_MOV = Accepted.
Proof.
  split; [reflexivity|]. split; [reflexivity|].
  split; [vm_compute; discriminate|].
  apply (validate_extension_fallback clip_MOV);
    [reflexivity | reflexivity | vm_compute; discriminate].
Defined.

(** ** Two decimal places *)

Lemma MiB_nonneg (b : N) : 0 <= MiB b.
Proof.
  unfold MiB, Qdiv, Qmult, Qinv, inject_Z, Qle. simpl. lia.
Qed.

Lemma MiB_frac (b : N) : MiB b = (Z.of_N b * 1 # 1048576).
Proof. reflexivity. Qed.

Lemma nearest_scaled_MiB (b : N) :
  nearest_scaled 2 (Qabs (MiB b)) = ((100 * Z.of_N b + 524288) / 1048576)%Z.
Proof.
  rewrite MiB_frac.
  unfold nearest_scaled, Qfloor, Qabs, Qmult, Qplus, inject_Z.
  change (10 ^ Z.of_nat 2)%Z with 100%Z.
  cbn [Qnum Qden].
  change (Z.pos (1048576 * 1 * 2)) with (1048576 * 2)%Z.
  change (Z.pos (1048576 * 1)) with 1048576%Z.
  replace (Z.abs (Z.of_N b * 1) * 100 * 2 + 1 * 1048576)%Z
    with ((100 * Z.of_N b + 524288) * 2)%Z by lia.
  apply Z.div_mul_cancel_r; lia.
Qed.

Lemma nearest_scaled_MiB_close (b : N) :
  let n := nearest_scaled 2 (Qabs (MiB b)) in
  (0 <= n /\ 2 * Z.abs (1048576 * n - 100 * Z.of_N b) <= 1048576)%Z.
Proof.
  intros n; subst n. rewrite nearest_scaled_MiB.
  pose proof (Z.div_mod (100 * Z.of_N b + 524288) 1048576 ltac:(lia)) as D.
  pose proof (Z.mod_pos_bound (100 * Z.of_N b + 524288) 1048576 ltac:(lia)) as B.
  split; [apply Z.div_pos; lia | lia].
Qed.

(** *** Strings of digits *)

Lemma length_append (s t : string) :
  String.length (s ++ t) = (String.length s + String.length t)%nat.
Proof. induction s; simpl; congruence. Qed.

Lemma append_assoc (s t u : string) : (s ++ t) ++ u = s ++ (t ++ u).
Proof. induction s; simpl; congruence. Qed.

Lemma length_zeros (k : nat) : String.length (zeros k) = k.
Proof. induction k; simpl; congruence. Qed.

Lemma substring_all (s : string) : substring 0 (String.length s) s = s.
Proof. induction s; simpl; congruence. Qed.

Lemma substring_split (s : string) (k : nat) :
  (k <= String.length s)%nat ->
  substring 0 k s ++ substring k (String.length s - k) s = s.
Proof.
  revert k; induction s as [|c s IH]; intros [|k] H; simpl in *;
    try reflexivity; try lia.
  - now rewrite substring_all.
  - rewrite IH by lia. reflexivity.
Qed.

Lemma length_substring (s : string) (n m : nat) :
  (n + m <= String.length s)%nat -> String.length (substring n m s) = m.
Proof.
  revert n m; induction s as [|c s IH]; intros [|n] [|m] H; simpl in *;
    try reflexivity; try lia.
  - now rewrite IH by lia.
  - apply IH; lia.
  - apply IH; lia.
Qed.

Lemma decimal_digits_NilEmpty (n : Z) :
  decimal_digits n = NilEmpty.string_of_uint (N.to_uint (Z.to_N n)).
Proof.
  unfold decimal_digits, NilZero.string_of_uint.
  destruct (N.to_uint (Z.to_N n)) eqn:E; try reflexivity.
  exfalso. destruct (Z.to_N n); [discriminate|].
  now apply (Unsigned.to_uint_nonnil p).
Qed.

Lemma decimal_digits_nonempty (n : Z) :
  (1 <= String.length (decimal_digits n))%nat.
Proof.
  rewrite decimal_digits_NilEmpty.
  destruct (N.to_uint (Z.to_N n)) eqn:E; simpl; try lia.
  exfalso. destruct (Z.to_N n); [discriminate|].
  now apply (Unsigned.to_uint_nonnil p).
Qed.

Lemma read_decimal_digits (n : Z) :
  read_digits (decimal_digits n) = Some (Z.to_N n).
Proof.
  unfold read_digits.
  rewrite decimal_digits_NilEmpty, NilEmpty.usu. simpl.
  now rewrite DecimalN.Unsigned.of_to.
Qed.

Lemma read_zeros (k : nat) (s : string) :
  read_digits (zeros k ++ s) = read_digits s.
Proof.
  unfold read_digits.
  induction k as [|k IH]; simpl; [reflexivity|].
  destruct (NilEmpty.uint_of_string (zeros k ++ s)) as [d|];
    destruct (NilEmpty.uint_of_string s) as [d'|]; simpl in *; congruence.
Qed.

Lemma toFixed_2_MiB (b : N) :
  exists whole frac : string,
    toFixed 2 (MiB b) = whole ++ "." ++ frac
    /\ (1 <= String.length whole)%nat
    /\ String.length frac = 2%nat
    /\ read_digits (whole ++ frac)
       = Some (Z.to_N ((100 * Z.of_N b + 524288) / 1048576)).
Proof.
  unfold toFixed.
  destruct (Qlt_le_dec (MiB b) 0) as [Hneg|_].
  { exfalso. apply (Qlt_not_le _ _ Hneg), MiB_nonneg. }
  rewrite nearest_scaled_MiB.
  set (n := ((100 * Z.of_N b + 524288) / 1048576)%Z).
  set (m := if (String.length (decimal_digits n) <=? 2)%nat
            then zeros (2 + 1 - String.length (decimal_digits n))
                 ++ decimal_digits n
            else decimal_digits n).
  assert (Hlen : (3 <= String.length m)%nat).
  { subst m. pose proof (decimal_digits_nonempty n).
    destruct (Nat.leb_spec (String.length (decimal_digits n)) 2).
    - rewrite length_append, length_zeros. lia.
    - lia. }
  assert (Hread : read_digits m = Some (Z.to_N n)).
  { subst m. destruct (String.length (decimal_digits n) <=? 2)%nat;
      rewrite ?read_zeros; apply read_decimal_digits. }
  exists (substring 0 (String.length m - 2) m),
         (substring (String.length m - 2) 2 m).
  split; [reflexivity|].
  split; [rewrite length_substring; lia|].
  split; [apply length_substring; lia|].
  pose proof (substring_split m (String.length m - 2) ltac:(lia)) as E.
  replace (String.length m - (String.length m - 2))%nat with 2%nat in E by lia.
  rewrite E. exact Hread.
Qed.

(** C6: the size is shown as the byte count divided by [1024 * 1024] with
    two decimal places.  For [fight.mp4] of 50_000_000 bytes, accepted, the
    page shows ["File: fight.mp4"] and ["Size: 47.68 MB"]; for every file
    the size string is ["Size: "], a whole part, a point, two digits and
    [" MB"], and the digits read as the integer nearest to a hundred times
    the size in mebibytes. *)
Theorem describe_two_decimals :
  (forall s : Page,
     validate fight_mp4 = Accepted
     /\ fileName_textContent (handleFile fight_mp4 s) = "File: fight.mp4"
     /\ fileSize_textContent (handleFile fight_mp4 s) = "Size: 47.68 MB")
  /\ forall file : File,
       exists (whole frac : string) (n : N),
         describe file
         = ("File: " ++ name file, "Size: " ++ whole ++ "." ++ frac ++ " MB")
         /\ (1 <= String.length whole)%nat
         /\ String.length frac = 2%nat
         /\ read_digits (whole ++ frac) = Some n
         /\ (2 * Z.abs (1048576 * Z.of_N n - 100 * Z.of_N (size file))
             <= 1048576)%Z.
Proof.
  split.
  - intros s. split; [reflexivity|].
    rewrite (handleFile_Accepted fight_mp4 s) by reflexivity.
    split; reflexivity.
  - intros file.
    destruct (toFixed_2_MiB (size file)) as (whole & frac & E & Hw & Hf & Hr).
    exists whole, frac,
      (Z.to_N ((100 * Z.of_N (size file) + 524288) / 1048576)).
    split.
    { unfold describe, display_name, display_size. rewrite E.
      now rewrite !append_assoc. }
    split; [exact Hw|]. split; [exact Hf|]. split; [exact Hr|].
    pose proof (nearest_scaled_MiB_close (size file)) as [H0 H1].
    rewrite nearest_scaled_MiB in H0, H1. rewrite Z2N.id by exact H0.
    exact H1.
Qed.

(** ** The session *)

(** *** Class lists *)

Lemma has_class_app (c : string) (cl cl' : list string) :
  has_class c (cl ++ cl') = has_class c cl || has_class c cl'.
Proof. apply existsb_app. Qed.

Lemma has_class_add (c : string) (tokens cl : list string) :
  has_class c (classList_add tokens cl) = has_class c cl || has_class c tokens.
Proof.
  unfold classList_add.
  revert cl; induction tokens as [|t tokens IH]; intros cl; simpl.
  - now rewrite orb_false_r.
  - rewrite IH. destruct (existsb (String.eqb t) cl) eqn:E.
    + destruct (String.eqb_spec c t) as [->|_]; simpl; [|reflexivity].
      unfold has_class. rewrite E. reflexivity.
    + rewrite has_class_app. simpl. now rewrite orb_false_r, orb_assoc.
Qed.

Lemma has_class_remove (c : string) (tokens cl : list string) :
  has_class c (classList_remove tokens cl)
  = has_class c cl && negb (has_class c tokens).
Proof.
  unfold classList_remove, has_class.
  induction cl as [|x cl IH]; simpl; [reflexivity|].
  destruct (String.eqb_spec c x) as [->|Hne]; simpl.
  - destruct (existsb (String.eqb x) tokens); simpl.
    + rewrite IH. now rewrite andb_false_r.
    + now rewrite String.eqb_refl.
  - destruct (existsb (String.eqb x) tokens); simpl; [exact IH|].
    destruct (String.eqb_spec c x); [contradiction|exact IH].
Qed.

(** Withdrawing the drag highlight does not touch the [hidden] class. *)
Lemma withdraw_highlight_hidden (cl : list string) :
  has_class "hidden"
    (classList_remove ["border-sky-500"; "bg-sky-500/10"]
       (classList_add ["border-white/30"] cl))
  = has_class "hidden" cl.
Proof.
  rewrite has_class_remove, has_class_add.
  change (has_class "hidden" ["border-white/30"]) with false.
  change (has_class "hidden" ["border-sky-500"; "bg-sky-500/10"]) with false.
  now rewrite orb_false_r, andb_true_r.
Qed.

(** *** The object-URL store only grows *)

Lemma handleFile_objectURLs (file : File) (s : Page) :
  exists more, objectURLs (handleFile file s) = (objectURLs s ++ more)%list.
Proof.
  unfold handleFile.
  destruct (negb (startsWith (type file) "video/")
            && negb (match_ext (name file))).
  - exists []. simpl. now rewrite app_nil_r.
  - destruct (MAX_FILE_SIZE <? size file)%N.
    + exists []. simpl. now rewrite app_nil_r.
    + exists [(issued s, file)]. reflexivity.
Qed.

Lemma handleFile_issued (file : File) (s : Page) :
  (issued s <= issued (handleFile file s))%N.
Proof.
  unfold handleFile.
  destruct (negb (startsWith (type file) "video/")
            && negb (match_ext (name file))); simpl; [lia|].
  destruct (MAX_FILE_SIZE <? size file)%N; simpl; lia.
Qed.

Lemma listener_objectURLs (e : Event) (s : Page) :
  exists more, objectURLs (listener e s) = (objectURLs s ++ more)%list.
Proof.
  destruct e as [| [] | | | [|file files] | [|file files] | |]; simpl;
    try (exists []; simpl; now rewrite app_nil_r).
  - match goal with |- context [handleFile file ?s'] =>
      destruct (handleFile_objectURLs file s') as [more E] end.
    exists more. exact E.
  - apply handleFile_objectURLs.
Qed.

Lemma listener_issued (e : Event) (s : Page) :
  (issued s <= issued (listener e s))%N.
Proof.
  destruct e as [| [] | | | [|file files] | [|file files] | |]; simpl;
    try lia.
  - match goal with |- context [handleFile file ?s'] =>
      pose proof (handleFile_issued file s') as H end.
    exact H.
  - apply handleFile_issued.
Qed.

Lemma run_objectURLs (events : list Event) (s : Page) :
  exists more, objectURLs (run events s) = (objectURLs s ++ more)%list.
Proof.
  unfold run. revert s; induction events as [|e events IH]; intros s; simpl.
  - exists []. now rewrite app_nil_r.
  - destruct (IH (listener e s)) as [more E].
    destruct (listener_objectURLs e s) as [more' E'].
    exists (more' ++ more)%list. now rewrite E, E', app_assoc.
Qed.

Lemma run_issued (events : list Event) (s : Page) :
  (issued s <= issued (run events s))%N.
Proof.
  unfold run. revert s; induction events as [|e events IH]; intros s; simpl.
  - lia.
  - pose proof (IH (listener e s)). pose proof (listener_issued e s). lia.
Qed.

Lemma run_keeps_entry (events : list Event) (s : Page) (u : ObjectURL) (f : File) :
  In (u, f) (objectURLs s) -> In (u, f) (objectURLs (run events s)).
Proof.
  intros H. destruct (run_objectURLs events s) as [more E].
  rewrite E. apply in_or_app. now left.
Qed.

Lemma live_In (u : ObjectURL) (f : File) (s : Page) :
  In (u, f) (objectURLs s) -> live u s = true.
Proof.
  intros H. unfold live. apply existsb_exists.
  exists (u, f). split; [exact H|]. apply N.eqb_refl.
Qed.

(** *** Selecting a file *)

Lemma listener_selects_Accepted (e : Event) (file : File) (s : Page) :
  selects e = Some file ->
  validate file = Accepted ->
  videoPlayer_src (listener e s) = SrcObject (issued s)
  /\ objectURLs (listener e s) = (objectURLs s ++ [(issued s, file)])%list
  /\ issued (listener e s) = N.succ (issued s)
  /\ shown (session (listener e s)) = describe file.
Proof.
  intros Hsel Hv.
  destruct e as [| ? | | | [|f files] | [|f files] | |];
    try discriminate Hsel; injection Hsel as ->;
    simpl listener; rewrite handleFile_Accepted by exact Hv;
    repeat split; reflexivity.
Qed.

(** C7, as the spec states it, fails: [fight.mp4] is staged under the
    object URL 0, the user replaces it by [clip.MOV], and URL 0 has not
    been released. *)
Lemma staged_objectURL_not_released :
  let sA := run [InputChange [fight_mp4]] blank_page in
  let sB := run [ChangeBtnClick; InputChange [clip_MOV]] sA in
  ~ (videoPlayer_src sA = SrcObject 0%N ->
     videoPlayer_src sB = SrcObject 1%N ->
     live 0%N sB = false).
Proof.
  intros sA sB H.
  assert (E : live 0%N sB = false) by (apply H; reflexivity).
  vm_compute in E. discriminate E.
Qed.

(** C7 (amended): when a file B is selected while a file A is staged
    (directly, or after the change button or any other events), A's object
    URL is not released: the player moves to a new URL for B, different
    from A's, and A's URL stays in the store, then and for the rest of the
    session. *)
Theorem replaced_objectURL_stays_live
    (A B : File) (eA eB : Event) (between later : list Event) (s : Page) :
  selects eA = Some A ->
  selects eB = Some B ->
  validate A = Accepted ->
  validate B = Accepted ->
  let sA := listener eA s in
  let sB := listener eB (run between sA) in
  exists uA uB : ObjectURL,
    videoPlayer_src sA = SrcObject uA
    /\ In (uA, A) (objectURLs sA)
    /\ videoPlayer_src sB = SrcObject uB
    /\ In (uB, B) (objectURLs sB)
    /\ uB <> uA
    /\ In (uA, A) (objectURLs sB) /\ live uA sB = true
    /\ In (uA, A) (objectURLs (run later sB))
    /\ live uA (run later sB) = true.
Proof.
  intros HA HB HvA HvB sA sB.
  destruct (listener_selects_Accepted eA A s HA HvA) as (SA & OA & IA & _).
  destruct (listener_selects_Accepted eB B (run between sA) HB HvB)
    as (SB & OB & _ & _).
  fold sA in SA, OA, IA. fold sB in SB, OB.
  assert (InA : In (issued s, A) (objectURLs sA)).
  { rewrite OA. apply in_or_app. right. now left. }
  assert (InAB : In (issued s, A) (objectURLs sB)).
  { rewrite OB. apply in_or_app. left. now apply run_keeps_entry. }
  exists (issued s), (issued (run between sA)).
  split; [exact SA|]. split; [exact InA|]. split; [exact SB|].
  split; [rewrite OB; apply in_or_app; right; now left|].
  split.
  { pose proof (run_issued between sA). rewrite IA in *. lia. }
  split; [exact InAB|]. split; [exact (live_In _ _ _ InAB)|].
  pose proof (run_keeps_entry later sB _ _ InAB) as L.
  split; [exact L | exact (live_In _ _ _ L)].
Qed.

Lemma replaced_objectURL_stays_live_witness :
  selects (Drop [fight_mp4]) = Some fight_mp4
  /\ selects (InputChange [clip_MOV]) = Some clip_MOV
  /\ validate fight_mp4 = Accepted
  /\ validate clip_MOV = Accepted
  /\ exists uA uB : ObjectURL,
       videoPlayer_src (listener (Drop [fight_mp4]) blank_page) = SrcObject uA
       /\ uB <> uA
       /\ live uA
            (listener (InputChange [clip_MOV])
               (run [ChangeBtnClick] (listener (Drop [fight_mp4]) blank_page)))
          = true.
Proof.
  do 4 (split; [reflexivity|]).
  destruct (replaced_objectURL_stays_live fight_mp4 clip_MOV
              (Drop [fight_mp4]) (InputChange [clip_MOV])
              [ChangeBtnClick] [] blank_page
              eq_refl eq_refl eq_refl eq_refl)
    as (uA & uB & H1 & _ & _ & _ & H5 & _ & H7 & _).
  exists uA, uB. split; [exact H1|]. split; [exact H5 | exact H7].
Defined.

(** C8: describing is idempotent: whatever the page looked like before,
    handling an accepted file shows the two strings of [describe], so
    handling the same file a second time, or from another state, shows the
    same name and the same size. *)
Theorem describe_idempotent (file : File) (s s' : Page) :
  validate file = Accepted ->
  shown (session (handleFile file s)) = describe file
  /\ shown (session (handleFile file (handleFile file s)))
     = shown (session (handleFile file s))
  /\ shown (session (handleFile file s'))
     = shown (session (handleFile file s)).
Proof.
  intros Hv.
  assert (E : forall p, shown (session (handleFile file p)) = describe file).
  { intros p. now rewrite handleFile_Accepted by exact Hv. }
  now rewrite !E.
Qed.

Lemma describe_idempotent_witness :
  validate fight_mp4 = Accepted
  /\ shown (session (handleFile fight_mp4 (handleFile fight_mp4 blank_page)))
     = shown (session (handleFile fight_mp4 blank_page)).
Proof.
  split; [reflexivity|].
  exact (proj1 (proj2 (describe_idempotent fight_mp4 blank_page blank_page
                         eq_refl))).
Defined.

(** C9: an event that offers no file is ignored.  An empty change of the
    input leaves the page as it is; an empty drop withdraws the drag
    highlight of the drop zone and leaves the session as it is: no alert,
    no object URL, the same staged source, display strings and panels. *)
Theorem empty_selection_ignored (s : Page) :
  listener (InputChange []) s = s
  /\ session (listener (Drop []) s) = session s
  /\ listener (Drop []) s
     = set_uploadContainer_classList
         (classList_remove ["border-sky-500"; "bg-sky-500/10"]
            (classList_add ["border-white/30"] (uploadContainer_classList s)))
         s.
Proof.
  split; [now destruct s|]. split; [|reflexivity].
  change (listener (Drop []) s)
    with (set_uploadContainer_classList
            (classList_remove ["border-sky-500"; "bg-sky-500/10"]
               (classList_add ["border-white/30"]
                  (uploadContainer_classList s))) s).
  unfold session, set_uploadContainer_classList.
  cbn [uploadContainer_classList videoPreview_classList videoPlayer_src
       videoInput_value fileName_textContent fileSize_textContent
       objectURLs issued alerts].
  now rewrite withdraw_highlight_hidden.
Qed.

(** C10: rejection is atomic: for a candidate that [validate] rejects,
    [handleFile] shows one alert and does nothing else -- no object URL is
    created, and the staged source, the display strings, the input and the
    panels are as before; the session after the selection event is the
    session before it with that one message added. *)
Theorem rejection_atomic (e : Event) (file : File) (r : Reason) (s : Page) :
  selects e = Some file ->
  validate file = Rejected r ->
  (exists msg : string,
     handleFile file s = alert msg s
     /\ session (listener e s)
        = mkSession (videoPlayer_src s)
            (fileName_textContent s, fileSize_textContent s)
            (videoInput_value s)
            (has_class "hidden" (uploadContainer_classList s))
            (has_class "hidden" (videoPreview_classList s))
            (objectURLs s) (issued s) (alerts s ++ [msg]))
  /\ objectURLs (handleFile file s) = objectURLs s
  /\ issued (handleFile file s) = issued s
  /\ videoPlayer_src (handleFile file s) = videoPlayer_src s
  /\ fileName_textContent (handleFile file s) = fileName_textContent s
  /\ fileSize_textContent (handleFile file s) = fileSize_textContent s
  /\ videoInput_value (handleFile file s) = videoInput_value s
  /\ uploadContainer_classList (handleFile file s) = uploadContainer_classList s
  /\ videoPreview_classList (handleFile file s) = videoPreview_classList s.
Proof.
  intros Hsel Hv.
  assert (E : exists msg : string, forall p, handleFile file p = alert msg p).
  { destruct r; eexists; intros p.
    - now apply handleFile_InvalidType.
    - now apply handleFile_TooLarge. }
  destruct E as [msg E]. split.
  - exists msg. split; [apply E|].
    destruct e as [| ? | | | [|f files] | [|f files] | |];
      try discriminate Hsel; injection Hsel as ->;
      cbn [listener]; rewrite E; unfold session, alert;
      cbn [uploadContainer_classList videoPreview_classList videoPlayer_src
           videoInput_value fileName_textContent fileSize_textContent
           objectURLs issued alerts set_uploadContainer_classList];
      rewrite ?withdraw_highlight_hidden; reflexivity.
  - rewrite E. repeat split.
Qed.

Lemma rejection_atomic_witness :
  selects (Drop [notes_txt]) = Some notes_txt
  /\ validate notes_txt = Rejected InvalidType
  /\ objectURLs (handleFile notes_txt blank_page) = objectURLs blank_page
  /\ videoPlayer_src (handleFile notes_txt blank_page)
     = videoPlayer_src blank_page.
Proof.
  split; [reflexivity|]. split; [reflexivity|].
  destruct (rejection_atomic (Drop [notes_txt]) notes_txt InvalidType
              blank_page eq_refl eq_refl)
    as (_ & H1 & _ & H3 & _).
  split; [exact H1 | exact H3].
Defined.

(** * Further properties of the script *)

(** ** The pattern and the guards *)

Lemma extension_Some_split (n e : string) :
  extension n = Some e -> exists stem : string, n = stem ++ "." ++ e.
Proof.
  induction n as [|c rest IH]; simpl; [discriminate|].
  destruct (extension rest) as [e'|].
  - intros [= <-]. destruct (IH eq_refl) as [stem ->].
    now exists (String c stem).
  - destruct (Ascii.eqb_spec c ".") as [->|_]; [|discriminate].
    intros [= <-]. now exists "".
Qed.

Lemma extension_of_split (stem ext : string) :
  extension ext = None -> extension (stem ++ "." ++ ext) = Some ext.
Proof.
  intros H. induction stem as [|c stem IH]; simpl.
  - now rewrite H.
  - simpl in IH. now rewrite IH.
Qed.

(** X1: the pattern [/\.(mp4|mov|avi)$/i] matches exactly the names that end
    in a dot followed by [mp4], [mov] or [avi] in any mix of cases; the dot
    is required and nothing may follow the extension. *)
Theorem match_ext_iff_suffix (n : string) :
  match_ext n = true
  <-> exists stem ext : string,
        n = stem ++ "." ++ ext /\ In (toLowerCase ext) allowedExtensions.
Proof.
  rewrite match_ext_allowed_extension. unfold allowed_extension. split.
  - destruct (extension n) as [e|] eqn:E; [|discriminate].
    intros H. apply existsb_exists in H as (x & Hx & Heq).
    apply String.eqb_eq in Heq. subst x.
    destruct (extension_Some_split n e E) as [stem ->].
    now exists stem, e.
  - intros (stem & ext & -> & Hin).
    assert (A : existsb (String.eqb (toLowerCase ext)) allowedExtensions = true).
    { apply existsb_exists. exists (toLowerCase ext).
      split; [exact Hin | apply String.eqb_refl]. }
    rewrite extension_of_split by now apply allowed_no_dot.
    exact A.
Qed.

Lemma lower_lower (c : ascii) : lower (lower c) = lower c.
Proof. each_ascii c. Qed.

Lemma toLowerCase_idempotent (s : string) :
  toLowerCase (toLowerCase s) = toLowerCase s.
Proof. induction s; simpl; [reflexivity|]. now rewrite lower_lower, IHs. Qed.

Lemma allowed_extension_toLowerCase (n : string) :
  allowed_extension (toLowerCase n) = allowed_extension n.
Proof.
  unfold allowed_extension. rewrite extension_toLowerCase.
  destruct (extension n); simpl; [|reflexivity].
  now rewrite toLowerCase_idempotent.
Qed.

(** X2: the guards do not look at the letter case of the file name: two files
    of the same type and size whose names differ only in case get the same
    verdict. *)
Theorem validate_name_case (f g : File) :
  type f = type g ->
  size f = size g ->
  toLowerCase (name f) = toLowerCase (name g) ->
  validate f = validate g.
Proof.
  intros Ht Hs Hn. unfold validate, type_check_fails.
  rewrite !match_ext_allowed_extension.
  rewrite <- (allowed_extension_toLowerCase (name f)).
  rewrite <- (allowed_extension_toLowerCase (name g)).
  now rewrite Ht, Hs, Hn.
Qed.

Lemma validate_name_case_witness :
  type clip_MOV = type (mkFile "Clip.mov" "" 10000000)
  /\ size clip_MOV = size (mkFile "Clip.mov" "" 10000000)
  /\ toLowerCase (name clip_MOV)
     = toLowerCase (name (mkFile "Clip.mov" "" 10000000))
  /\ validate clip_MOV = validate (mkFile "Clip.mov" "" 10000000).
Proof.
  split; [reflexivity|]. split; [reflexivity|]. split; [reflexivity|].
  apply (validate_name_case clip_MOV (mkFile "Clip.mov" "" 10000000));
    reflexivity.
Defined.

(** X3: the size limit is inclusive: for a file that passes the type check,
    [handleFile] shows no alert exactly when the size is at most 524288000
    bytes, so a file of exactly that size is staged although the message
    speaks of "less than 500MB". *)
Theorem size_limit_inclusive (file : File) (s : Page) :
  startsWith (type file) "video/" = true
  \/ allowed_extension (name file) = true ->
  (alerts (handleFile file s) = alerts s <-> (size file <= 524288000)%N).
Proof.
  intros Ht. apply type_check_passes_iff in Ht.
  rewrite <- MAX_FILE_SIZE_bytes. split.
  - intros Ha. destruct (N.le_gt_cases (size file) MAX_FILE_SIZE) as [H|H];
      [exact H|exfalso].
    assert (V : validate file = Rejected TooLarge)
      by (apply validate_TooLarge_iff; now split).
    rewrite (handleFile_TooLarge file s V) in Ha. simpl in Ha.
    apply (f_equal (@List.length string)) in Ha.
    rewrite length_app in Ha. simpl in Ha. lia.
  - intros Hs.
    assert (V : validate file = Accepted)
      by (apply validate_Accepted_iff; now split).
    now rewrite (handleFile_Accepted file s V).
Qed.

Lemma size_limit_inclusive_witness :
  (startsWith (type (mkFile "fight.mp4" "video/mp4" 524288000)) "video/" = true
   \/ allowed_extension (name (mkFile "fight.mp4" "video/mp4" 524288000)) = true)
  /\ (alerts (handleFile (mkFile "fight.mp4" "video/mp4" 524288000) blank_page)
      = alerts blank_page
      <-> (size (mkFile "fight.mp4" "video/mp4" 524288000) <= 524288000)%N).
Proof.
  split; [left; reflexivity|].
  apply (size_limit_inclusive (mkFile "fight.mp4" "video/mp4" 524288000)
           blank_page).
  left; reflexivity.
Defined.

(** ** The size string *)

Lemma append_cancel_r (s t u : string) : s ++ u = t ++ u -> s = t.
Proof.
  revert t; induction s as [|a s IH]; intros [|b t] H; simpl in H.
  - reflexivity.
  - apply (f_equal String.length) in H. simpl in H.
    rewrite length_append in H. lia.
  - apply (f_equal String.length) in H. simpl in H.
    rewrite length_append in H. lia.
  - injection H as -> H. f_equal. now apply IH.
Qed.

Lemma append_cancel_l (u s t : string) : u ++ s = u ++ t -> s = t.
Proof.
  induction u as [|a u IH]; simpl; [trivial|].
  intros H. injection H as H. now apply IH.
Qed.

Lemma display_size_split (file : File) :
  exists whole frac : string,
    display_size file = "Size: " ++ whole ++ "." ++ frac ++ " MB"
    /\ (1 <= String.length whole)%nat
    /\ String.length frac = 2%nat
    /\ read_digits (whole ++ frac)
       = Some (Z.to_N ((100 * Z.of_N (size file) + 524288) / 1048576)).
Proof.
  destruct (toFixed_2_MiB (size file)) as (whole & frac & E & Hw & Hf & Hr).
  exists whole, frac. split; [|now split].
  unfold display_size. rewrite E. now rewrite !append_assoc.
Qed.

(** X4: small files read as zero: the size string is ["Size: 0.00 MB"] exactly
    for the files of fewer than 5243 bytes, the sizes that round down to
    zero hundredths of a mebibyte. *)
Theorem display_size_zero_iff (file : File) :
  display_size file = "Size: 0.00 MB" <-> (size file < 5243)%N.
Proof.
  split.
  - intros H.
    destruct (display_size_split file) as (whole & frac & E & Hw & Hf & Hr).
    rewrite H in E.
    change "Size: 0.00 MB" with ("Size: " ++ "0.00" ++ " MB") in E.
    apply append_cancel_l in E.
    rewrite <- (append_assoc "." frac " MB") in E.
    rewrite <- (append_assoc whole ("." ++ frac) " MB") in E.
    apply append_cancel_r in E.
    assert (L : String.length whole = 1%nat).
    { apply (f_equal String.length) in E.
      rewrite length_append in E. simpl in E. lia. }
    destruct whole as [|c [|c' w]]; simpl in L; try discriminate L.
    simpl in E. injection E as <- <-.
    assert (Z0 : Z.to_N ((100 * Z.of_N (size file) + 524288) / 1048576) = 0%N).
    { assert (R : read_digits ("0" ++ "00") = Some 0%N) by reflexivity.
      rewrite R in Hr. congruence. }
    assert (Q : ((100 * Z.of_N (size file) + 524288) / 1048576 <= 0)%Z) by lia.
    destruct (Z_lt_le_dec (100 * Z.of_N (size file) + 524288) 1048576)
      as [Lt|Ge]; [lia|].
    pose proof (Z.div_le_mono 1048576 (100 * Z.of_N (size file) + 524288)
                  1048576 ltac:(lia) Ge) as M.
    change (1048576 / 1048576)%Z with 1%Z in M. lia.
  - intros H. unfold display_size, toFixed.
    destruct (Qlt_le_dec (MiB (size file)) 0) as [Hneg|_].
    { exfalso. apply (Qlt_not_le _ _ Hneg), MiB_nonneg. }
    rewrite nearest_scaled_MiB.
    rewrite Z.div_small by lia. reflexivity.
Qed.

(** X5: a staged file never reads above 500.00: for a file that passes both
    guards, the digits of the size string stand for at most 50000
    hundredths of a mebibyte. *)
Theorem display_size_accepted_bound (file : File) :
  validate file = Accepted ->
  exists (whole frac : string) (n : N),
    display_size file = "Size: " ++ whole ++ "." ++ frac ++ " MB"
    /\ String.length frac = 2%nat
    /\ read_digits (whole ++ frac) = Some n
    /\ (n <= 50000)%N.
Proof.
  intros V. apply validate_Accepted_iff in V as [_ Hs].
  rewrite MAX_FILE_SIZE_bytes in Hs.
  destruct (display_size_split file) as (whole & frac & E & _ & Hf & Hr).
  exists whole, frac,
    (Z.to_N ((100 * Z.of_N (size file) + 524288) / 1048576)).
  split; [exact E|]. split; [exact Hf|]. split; [exact Hr|].
  assert (B : ((100 * Z.of_N (size file) + 524288) / 1048576 < 50001)%Z).
  { apply Z.div_lt_upper_bound; lia. }
  pose proof (Z.div_pos (100 * Z.of_N (size file) + 524288) 1048576
                ltac:(lia) ltac:(lia)).
  lia.
Qed.

Lemma display_size_accepted_bound_witness :
  validate fight_mp4 = Accepted
  /\ exists (whole frac : string) (n : N),
       display_size fight_mp4 = "Size: " ++ whole ++ "." ++ frac ++ " MB"
       /\ String.length frac = 2%nat
       /\ read_digits (whole ++ frac) = Some n
       /\ (n <= 50000)%N.
Proof.
  split; [reflexivity|].
  apply (display_size_accepted_bound fight_mp4). reflexivity.
Defined.

(** ** Whole sessions *)

(** What [handleFile] does, by the verdict of the guards. *)
Lemma handleFile_cases (file : File) (s : Page) :
  (validate file = Accepted
   /\ handleFile file s
      = mkPage (classList_add ["hidden"] (uploadContainer_classList s))
          (classList_remove ["hidden"] (videoPreview_classList s))
          (SrcObject (issued s)) (videoInput_value s)
          (display_name file) (display_size file)
          (objectURLs s ++ [(issued s, file)]) (N.succ (issued s))
          (alerts s) (pickerRequests s))
  \/ (exists r : Reason,
        validate file = Rejected r
        /\ handleFile file s = alert (hd "" (alerts_of (InputChange [file]))) s).
Proof.
  destruct (validate file) as [|[|]] eqn:V.
  - left. split; [reflexivity|]. now apply handleFile_Accepted.
  - right. exists InvalidType. split; [reflexivity|].
    unfold alerts_of. cbn [selects]. rewrite V.
    now apply handleFile_InvalidType.
  - right. exists TooLarge. split; [reflexivity|].
    unfold alerts_of. cbn [selects]. rewrite V.
    now apply handleFile_TooLarge.
Qed.

Lemma run_cons (e : Event) (events : list Event) (s : Page) :
  run (e :: events) s = run events (listener e s).
Proof. reflexivity. Qed.

(** A property kept by every listener is kept by every session. *)
Lemma run_invariant (P : Page -> Prop) :
  (forall e s, P s -> P (listener e s)) ->
  forall events s, P s -> P (run events s).
Proof.
  intros Step events. induction events as [|e events IH]; intros s H.
  - exact H.
  - rewrite run_cons. apply IH, Step, H.
Qed.

Lemma has_hidden_add (cl : list string) :
  has_class "hidden" (classList_add ["hidden"] cl) = true.
Proof. rewrite has_class_add. apply orb_true_r. Qed.

Lemma has_hidden_remove (cl : list string) :
  has_class "hidden" (classList_remove ["hidden"] cl) = false.
Proof. rewrite has_class_remove. apply andb_false_r. Qed.

Lemma highlight_hidden (cl : list string) :
  has_class "hidden"
    (classList_add ["border-sky-500"; "bg-sky-500/10"]
       (classList_remove ["border-white/30"] cl))
  = has_class "hidden" cl.
Proof.
  rewrite has_class_add, has_class_remove.
  change (has_class "hidden" ["border-white/30"]) with false.
  change (has_class "hidden" ["border-sky-500"; "bg-sky-500/10"]) with false.
  now rewrite orb_false_r, andb_true_r.
Qed.

(** The page components a listener leaves alone or sets, by event. *)
Ltac page_fields :=
  cbn [uploadContainer_classList videoPreview_classList videoPlayer_src
       videoInput_value fileName_textContent fileSize_textContent
       objectURLs issued alerts pickerRequests
       set_uploadContainer_classList set_videoPreview_classList
       set_videoPlayer_src set_videoInput_value
       set_fileName_textContent set_fileSize_textContent
       alert videoInput_click] in *.

(** Splits a goal about [listener e s] by the event, the files it offers
    and the verdict on the first one. *)
Ltac by_event e :=
  destruct e as [| [] | | | [|?file ?files] | [|?file ?files] | |];
  cbn [listener negb];
  try match goal with
      | |- context [handleFile ?f ?p] =>
          let V := fresh "V" in
          let E := fresh "E" in
          let r := fresh "r" in
          destruct (handleFile_cases f p) as [[V E]|[r [V E]]];
          rewrite E
      end.

(** X6: only the first file of a selection counts: taking the other files out
    of every drop and every input change of a session changes nothing. *)
Theorem run_first_only (events : list Event) (s : Page) :
  run (map first_only events) s = run events s.
Proof.
  revert s; induction events as [|e events IH]; intros s; [reflexivity|].
  cbn [map]. rewrite !run_cons, IH. f_equal.
  destruct e as [| ? | | | [|f files] | [|f files] | |]; reflexivity.
Qed.

Lemma session_fields (s s' : Page) :
  session s = session s'
  <-> videoPlayer_src s = videoPlayer_src s'
      /\ fileName_textContent s = fileName_textContent s'
      /\ fileSize_textContent s = fileSize_textContent s'
      /\ videoInput_value s = videoInput_value s'
      /\ has_class "hidden" (uploadContainer_classList s)
         = has_class "hidden" (uploadContainer_classList s')
      /\ has_class "hidden" (videoPreview_classList s)
         = has_class "hidden" (videoPreview_classList s')
      /\ objectURLs s = objectURLs s'
      /\ issued s = issued s'
      /\ alerts s = alerts s'.
Proof.
  unfold session. split.
  - intros H. injection H as H1 H2 H3 H4 H5 H6 H7 H8 H9. repeat split; assumption.
  - intros (H1 & H2 & H3 & H4 & H5 & H6 & H7 & H8 & H9).
    now rewrite H1, H2, H3, H4, H5, H6, H7, H8, H9.
Qed.

Lemma session_handleFile (file : File) (s s' : Page) :
  session s = session s' ->
  session (handleFile file s) = session (handleFile file s').
Proof.
  intros H. apply session_fields in H
    as (H1 & H2 & H3 & H4 & H5 & H6 & H7 & H8 & H9).
  apply session_fields.
  destruct (handleFile_cases file s) as [[V E]|[r [V E]]];
    destruct (handleFile_cases file s') as [[V' E']|[r' [V' E']]];
    try congruence; rewrite E, E'; page_fields;
    rewrite ?has_hidden_add, ?has_hidden_remove;
    repeat split; congruence.
Qed.

(** X7: the session does not depend on the drag highlight or on the picker
    requests: from two pages with the same session, the same event leads
    to pages with the same session. *)
Theorem session_determined (e : Event) (s s' : Page) :
  session s = session s' ->
  session (listener e s) = session (listener e s').
Proof.
  intros H.
  destruct e as [| [] | | | [|f files] | [|f files] | |]; cbn [listener negb];
    try (apply session_handleFile);
    apply session_fields in H as (H1 & H2 & H3 & H4 & H5 & H6 & H7 & H8 & H9);
    apply session_fields; page_fields;
    rewrite ?withdraw_highlight_hidden, ?highlight_hidden,
      ?has_hidden_add, ?has_hidden_remove;
    repeat split; congruence.
Qed.

Lemma session_determined_witness :
  session blank_page = session (listener DragOver blank_page)
  /\ session (listener (Drop [fight_mp4]) blank_page)
     = session (listener (Drop [fight_mp4]) (listener DragOver blank_page)).
Proof.
  split; [reflexivity|].
  apply (session_determined (Drop [fight_mp4]) blank_page
           (listener DragOver blank_page)).
  reflexivity.
Defined.

(** X8: dropping files and choosing the same files through the input
    stage, display and alert alike.  The browser has written the input's
    value before a change event arrives and a drop leaves it alone, and
    neither listener writes it; in everything else the sessions after the
    two listeners are the same. *)
Theorem drop_as_input_change (files : list File) (v : string) (s : Page) :
  let dropped := listener (Drop files) s in
  let chosen := listener (InputChange files) (set_videoInput_value v s) in
  videoInput_value dropped = videoInput_value s
  /\ videoInput_value chosen = v
  /\ session chosen
     = mkSession (staged (session dropped)) (shown (session dropped)) v
         (upload_hidden (session dropped)) (preview_hidden (session dropped))
         (store (session dropped)) (next_url (session dropped))
         (messages (session dropped)).
Proof.
  destruct files as [|f files]; cbn [listener]; cbv zeta.
  - unfold session. page_fields. rewrite withdraw_highlight_hidden.
    repeat split.
  - match goal with |- context [handleFile f (set_uploadContainer_classList ?cl ?p)] =>
      destruct (handleFile_cases f (set_uploadContainer_classList cl p))
        as [[V E]|[r [V E]]]
    end;
    destruct (handleFile_cases f (set_videoInput_value v s))
      as [[V' E']|[r' [V' E']]];
    try congruence; rewrite E, E'; unfold session; page_fields;
    rewrite ?withdraw_highlight_hidden, ?has_hidden_add, ?has_hidden_remove;
    repeat split.
Qed.

(** *** Invariants *)

Lemma listener_panels_exclusive (e : Event) (s : Page) :
  panels_exclusive s -> panels_exclusive (listener e s).
Proof.
  unfold panels_exclusive. intros H. by_event e; page_fields;
    rewrite ?withdraw_highlight_hidden, ?highlight_hidden,
      ?has_hidden_add, ?has_hidden_remove;
    try reflexivity; exact H.
Qed.

(** X9: the two panels never show together and never hide together: when
    exactly one of the drop zone and the preview carries [hidden], the
    same holds after any sequence of events. *)
Theorem run_panels_exclusive (events : list Event) (s : Page) :
  panels_exclusive s -> panels_exclusive (run events s).
Proof. apply run_invariant. exact listener_panels_exclusive. Qed.

Lemma run_panels_exclusive_witness :
  panels_exclusive blank_page
  /\ panels_exclusive
       (run [DragOver; Drop [fight_mp4]; ChangeBtnClick] blank_page).
Proof.
  split; [reflexivity|].
  apply (run_panels_exclusive [DragOver; Drop [fight_mp4]; ChangeBtnClick]
           blank_page).
  reflexivity.
Defined.

Lemma preview_consistent_frame (s s' : Page) :
  videoPreview_classList s' = videoPreview_classList s ->
  videoPlayer_src s' = videoPlayer_src s ->
  fileName_textContent s' = fileName_textContent s ->
  fileSize_textContent s' = fileSize_textContent s ->
  objectURLs s' = objectURLs s ->
  preview_consistent s -> preview_consistent s'.
Proof.
  unfold preview_consistent. intros -> -> -> -> ->. trivial.
Qed.

Lemma handleFile_preview_consistent (file : File) (s : Page) :
  preview_consistent s -> preview_consistent (handleFile file s).
Proof.
  intros H. destruct (handleFile_cases file s) as [[V E]|[r [V E]]]; rewrite E.
  - unfold preview_consistent. page_fields. rewrite has_hidden_remove.
    exists (issued s), file. repeat split; try reflexivity; try exact V.
    apply in_or_app. right. now left.
  - now apply (preview_consistent_frame s).
Qed.

Lemma listener_preview_consistent (e : Event) (s : Page) :
  preview_consistent s -> preview_consistent (listener e s).
Proof.
  intros H.
  destruct e as [| [] | | | [|f files] | [|f files] | |]; cbn [listener negb];
    try (apply handleFile_preview_consistent);
    try (now apply (preview_consistent_frame s)).
  unfold preview_consistent. page_fields. now rewrite has_hidden_add.
Qed.

(** X10: the player always agrees with the preview panel: while the panel is
    hidden the player has the empty source; while it is shown the player
    has an object URL of the store, made for a file that passed the guards,
    and the name and size displayed are that file's. *)
Theorem run_preview_consistent (events : list Event) (s : Page) :
  preview_consistent s -> preview_consistent (run events s).
Proof. apply run_invariant. exact listener_preview_consistent. Qed.

Lemma run_preview_consistent_witness :
  preview_consistent blank_page
  /\ preview_consistent
       (run [Drop [fight_mp4]; InputChange [notes_txt]] blank_page).
Proof.
  split; [reflexivity|].
  apply (run_preview_consistent [Drop [fight_mp4]; InputChange [notes_txt]]
           blank_page).
  reflexivity.
Defined.

(** How the store and the URL counter move in one step. *)
Lemma listener_store (e : Event) (s : Page) :
  (stages e = false
   /\ objectURLs (listener e s) = objectURLs s
   /\ issued (listener e s) = issued s)
  \/ (exists file : File,
        stages e = true /\ selects e = Some file /\ validate file = Accepted
        /\ objectURLs (listener e s) = (objectURLs s ++ [(issued s, file)])%list
        /\ issued (listener e s) = N.succ (issued s)).
Proof.
  unfold stages. by_event e; page_fields; cbn [selects]; rewrite ?V;
    try (left; repeat split; reflexivity);
    right; eexists; repeat split; (reflexivity || exact V).
Qed.

Lemma listener_store_accepted (e : Event) (s : Page) :
  store_accepted s -> store_accepted (listener e s).
Proof.
  unfold store_accepted. intros H.
  destruct (listener_store e s) as [(_ & -> & _)|(f & _ & _ & V & -> & _)];
    [exact H|].
  apply Forall_app. split; [exact H|]. now constructor.
Qed.

(** X11: nothing unchecked is ever staged: when every object URL of the store
    belongs to a file that passed the guards, the same holds after any
    sequence of events. *)
Theorem run_store_accepted (events : list Event) (s : Page) :
  store_accepted s -> store_accepted (run events s).
Proof. apply run_invariant. exact listener_store_accepted. Qed.

Lemma run_store_accepted_witness :
  store_accepted blank_page
  /\ store_accepted
       (run [Drop [notes_txt]; Drop [fight_mp4]; InputChange [big_mp4]]
          blank_page).
Proof.
  split; [constructor|].
  apply (run_store_accepted
           [Drop [notes_txt]; Drop [fight_mp4]; InputChange [big_mp4]]
           blank_page).
  constructor.
Defined.

Lemma listener_store_fresh (e : Event) (s : Page) :
  store_fresh s -> store_fresh (listener e s).
Proof.
  unfold store_fresh. intros [Hnd Hlt].
  destruct (listener_store e s)
    as [(_ & -> & ->)|(f & _ & _ & _ & -> & ->)]; [now split|].
  split.
  - rewrite map_app. cbn [map fst].
    apply NoDup_app; [exact Hnd | repeat constructor; intros [] |].
    intros u Hu [<-|[]].
    apply in_map_iff in Hu as (entry & Heq & Hin).
    rewrite Forall_forall in Hlt. specialize (Hlt entry Hin).
    cbv beta in Hlt. unfold ObjectURL in *. lia.
  - apply Forall_app. split.
    + eapply Forall_impl; [|exact Hlt]. cbv beta. intros; lia.
    + constructor; [cbn [fst]; lia | constructor].
Qed.

(** X12: every staging gets an object URL of its own: when the URLs of the
    store are pairwise distinct and below the counter of the host, the
    same holds after any sequence of events. *)
Theorem run_store_fresh (events : list Event) (s : Page) :
  store_fresh s -> store_fresh (run events s).
Proof. apply run_invariant. exact listener_store_fresh. Qed.

Lemma run_store_fresh_witness :
  store_fresh blank_page
  /\ store_fresh
       (run [Drop [fight_mp4]; ChangeBtnClick; InputChange [clip_MOV]]
          blank_page).
Proof.
  split; [split; constructor|].
  apply (run_store_fresh
           [Drop [fight_mp4]; ChangeBtnClick; InputChange [clip_MOV]]
           blank_page).
  split; constructor.
Defined.

(** *** Counting what a session does *)

(** X13: one object URL is made for each staging and none is ever given back:
    after any sequence of events the store holds as many URLs more as
    there were events that staged a file, and the counter of the host has
    moved by the same number. *)
Theorem run_store_count (events : list Event) (s : Page) :
  List.length (objectURLs (run events s))
  = (List.length (objectURLs s) + List.length (filter stages events))%nat
  /\ issued (run events s)
     = (issued s + N.of_nat (List.length (filter stages events)))%N.
Proof.
  revert s; induction events as [|e events IH]; intros s.
  - cbn. split; lia.
  - rewrite run_cons. destruct (IH (listener e s)) as [IH1 IH2].
    rewrite IH1, IH2. cbn [filter].
    destruct (listener_store e s)
      as [(-> & -> & ->)|(f & -> & _ & _ & -> & ->)].
    + split; reflexivity.
    + rewrite length_app. cbn [List.length]. split; lia.
Qed.

Lemma listener_alerts (e : Event) (s : Page) :
  alerts (listener e s) = (alerts s ++ alerts_of e)%list.
Proof.
  unfold alerts_of.
  by_event e; page_fields; cbn [selects]; rewrite ?V;
    rewrite ?app_nil_r; try reflexivity.
  - unfold alerts_of. cbn [selects]. rewrite V. now destruct r.
  - unfold alerts_of. cbn [selects]. rewrite V. now destruct r.
Qed.

(** X14: the messages a session shows depend on the events alone, not on the
    page: one for each rejected selection, naming the guard that failed,
    one for each click on the analyze button, none for anything else, in
    the order of the events. *)
Theorem run_alerts (events : list Event) (s : Page) :
  alerts (run events s) = (alerts s ++ flat_map alerts_of events)%list.
Proof.
  revert s; induction events as [|e events IH]; intros s.
  - cbn. now rewrite app_nil_r.
  - rewrite run_cons, IH, listener_alerts. cbn [flat_map].
    now rewrite app_assoc.
Qed.

Lemma listener_pickerRequests (e : Event) (s : Page) :
  pickerRequests (listener e s)
  = if opens_picker e then S (pickerRequests s) else pickerRequests s.
Proof. by_event e; page_fields; reflexivity. Qed.

(** X15: the file picker is asked for once per click on the upload button and
    once per click elsewhere in the drop zone; a click that reaches the
    drop zone with the upload button as its target asks for nothing, and
    neither does any other event. *)
Theorem run_pickerRequests (events : list Event) (s : Page) :
  pickerRequests (run events s)
  = (pickerRequests s + List.length (filter opens_picker events))%nat.
Proof.
  revert s; induction events as [|e events IH]; intros s.
  - cbn. lia.
  - rewrite run_cons, IH, listener_pickerRequests. cbn [filter].
    destruct (opens_picker e); cbn [List.length]; lia.
Qed.

(** *** The drag highlight and the change button *)

Lemma classList_add_present (tokens cl : list string) :
  (forall t, In t tokens -> has_class t cl = true) ->
  classList_add tokens cl = cl.
Proof.
  unfold classList_add, has_class.
  induction tokens as [|t tokens IH]; intros H; [reflexivity|].
  cbn [fold_left]. rewrite (H t) by now left.
  apply IH. intros t' Ht'. apply H. now right.
Qed.

Lemma classList_remove_absent (tokens cl : list string) :
  (forall t, In t tokens -> has_class t cl = false) ->
  classList_remove tokens cl = cl.
Proof.
  unfold classList_remove, has_class. intros H.
  induction cl as [|x cl IH]; [reflexivity|].
  cbn [filter].
  assert (X : existsb (String.eqb x) tokens = false).
  { destruct (existsb (String.eqb x) tokens) eqn:E; [|reflexivity].
    apply existsb_exists in E as (t & Ht & Heq).
    apply String.eqb_eq in Heq. subst t.
    specialize (H x Ht). cbn [existsb] in H.
    now rewrite String.eqb_refl in H. }
  rewrite X. cbn [negb]. f_equal. apply IH.
  intros t Ht. specialize (H t Ht). cbn [existsb] in H.
  now apply orb_false_iff in H.
Qed.

Ltac class_facts :=
  repeat (rewrite has_class_remove || rewrite has_class_add);
  repeat match goal with
         | |- context [has_class ?a (?b :: ?l)] =>
             let v := eval vm_compute in (has_class a (b :: l)) in
             change (has_class a (b :: l)) with v
         end;
  rewrite ?orb_false_r, ?orb_true_r, ?andb_false_r, ?andb_true_r.

(** X16: repeating a drag-over, a drag-leave or a click on the change button
    changes nothing more: the second of two equal events in a row leaves
    the page as the first one made it. *)
Theorem listener_idempotent (s : Page) :
  listener DragOver (listener DragOver s) = listener DragOver s
  /\ listener DragLeave (listener DragLeave s) = listener DragLeave s
  /\ listener ChangeBtnClick (listener ChangeBtnClick s)
     = listener ChangeBtnClick s.
Proof.
  split; [|split]; cbn [listener]; page_fields;
    unfold set_uploadContainer_classList, set_videoPreview_classList;
    page_fields.
  - f_equal.
    rewrite (classList_remove_absent ["border-white/30"]).
    + apply classList_add_present.
      intros t [<-|[<-|[]]]; class_facts; reflexivity.
    + intros t [<-|[]]. class_facts. reflexivity.
  - f_equal.
    rewrite (classList_add_present ["border-white/30"]).
    + apply classList_remove_absent.
      intros t [<-|[<-|[]]]; class_facts; reflexivity.
    + intros t [<-|[]]. class_facts. reflexivity.
  - f_equal.
    + apply classList_remove_absent.
      intros t [<-|[]]. class_facts. reflexivity.
    + apply classList_add_present.
      intros t [<-|[]]. class_facts. reflexivity.
Qed.

Lemma handleFile_highlight (file : File) (s : Page) (c : string) :
  String.eqb c "hidden" = false ->
  has_class c (uploadContainer_classList (handleFile file s))
  = has_class c (uploadContainer_classList s).
Proof.
  intros Hc.
  destruct (handleFile_cases file s) as [[V E]|[r [V E]]]; rewrite E;
    page_fields; [|reflexivity].
  rewrite has_class_add. unfold has_class at 2. cbn [existsb].
  now rewrite Hc, !orb_false_r.
Qed.

(** X17: the drag highlight follows the last drag event: a drag-over puts it
    on, a drag-leave and a drop (of any files) take it off, and no other
    event touches it. *)
Theorem highlight_follows_drag (e : Event) (s : Page) :
  match e with
  | DragOver => highlighted (listener e s) = true
  | DragLeave | Drop _ => at_rest (listener e s) = true
  | _ =>
      highlighted (listener e s) = highlighted s
      /\ at_rest (listener e s) = at_rest s
  end.
Proof.
  unfold highlighted, at_rest.
  destruct e as [| [] | | | [|f files] | [|f files] | |]; cbn [listener negb];
    rewrite ?handleFile_highlight by reflexivity;
    page_fields; class_facts; try reflexivity; split; reflexivity.
Qed.

(** X18: dragging over the drop zone and away again (or dropping nothing)
    gives back the classes it had: when the drop zone was at rest before,
    it carries the same classes afterwards. *)
Theorem drag_round_trip (s : Page) (c : string) :
  at_rest s = true ->
  has_class c (uploadContainer_classList (run [DragOver; DragLeave] s))
  = has_class c (uploadContainer_classList s)
  /\ has_class c (uploadContainer_classList (run [DragOver; Drop []] s))
     = has_class c (uploadContainer_classList s).
Proof.
  unfold at_rest. intros H.
  apply andb_true_iff in H as [H Hb]. apply andb_true_iff in H as [Hw Ha].
  apply negb_true_iff in Ha, Hb.
  assert (G : has_class c
                (classList_remove ["border-sky-500"; "bg-sky-500/10"]
                   (classList_add ["border-white/30"]
                      (classList_add ["border-sky-500"; "bg-sky-500/10"]
                         (classList_remove ["border-white/30"]
                            (uploadContainer_classList s)))))
              = has_class c (uploadContainer_classList s)).
  { repeat (rewrite has_class_remove || rewrite has_class_add).
    destruct (String.eqb_spec c "border-white/30") as [->|Nw];
      [rewrite Hw; reflexivity|].
    destruct (String.eqb_spec c "border-sky-500") as [->|Na];
      [rewrite Ha; reflexivity|].
    destruct (String.eqb_spec c "bg-sky-500/10") as [->|Nb];
      [rewrite Hb; reflexivity|].
    apply String.eqb_neq in Nw, Na, Nb.
    unfold has_class at 2 3 4 5. cbn [existsb].
    rewrite Nw, Na, Nb. cbn [orb negb].
    now rewrite !andb_true_r, !orb_false_r. }
  split; exact G.
Qed.

Lemma drag_round_trip_witness :
  at_rest blank_page = true
  /\ has_class "border-white/30"
       (uploadContainer_classList (run [DragOver; DragLeave] blank_page))
     = has_class "border-white/30" (uploadContainer_classList blank_page).
Proof.
  split; [reflexivity|].
  exact (proj1 (drag_round_trip blank_page "border-white/30" eq_refl)).
Defined.
